(** * customtwitter.py: the APIX client, its validation and request construction

    A shallow embedding of [src/customtwitter.py].  The class [APIX] keeps an
    access key, a host and a header dictionary, and offers seven methods.  Each
    method validates its arguments, rebuilds [self.params], calls
    [requests.get(url, headers = self.APIheaders, params = self.params)] and
    returns [response.json()].

    Python [str] values are modelled by [string], read as ASCII text.  A Python
    [dict] with string keys is an association list in insertion order.  The
    methods run in a state-and-exception monad over the instance and the
    network: the network keeps the log of every request issued. *)

From Stdlib Require Import String Ascii List ZArith Bool Lia.
Import ListNotations.
Local Open Scope string_scope.

(** ** Python built-ins used by the module *)

Module Py.

(** [str.upper] on ASCII text: [a]-[z] go to [A]-[Z], the rest is kept. *)
Definition upper_char (c : ascii) : ascii :=
  let n := N_of_ascii c in
  if ((97 <=? n) && (n <=? 122))%N then ascii_of_N (n - 32) else c.

Fixpoint upper (s : string) : string :=
  match s with
  | EmptyString => EmptyString
  | String c r => String (upper_char c) (upper r)
  end.

(** The characters [int()] skips around a literal: tab, line feed, vertical
    tab, form feed, carriage return and space. *)
Definition isspace (c : ascii) : bool :=
  let n := N_of_ascii c in
  (((9 <=? n) && (n <=? 13)) || (n =? 32))%N.

Definition digit_value (c : ascii) : option Z :=
  let n := N_of_ascii c in
  if ((48 <=? n) && (n <=? 57))%N then Some (Z.of_N n - 48)%Z else None.

Definition is_underscore (c : ascii) : bool := (N_of_ascii c =? 95)%N.

Fixpoint lstrip (s : string) : string :=
  match s with
  | String c r => if isspace c then lstrip r else s
  | EmptyString => s
  end.

(** An optional sign: the flag says whether it was a minus. *)
Definition take_sign (s : string) : bool * string :=
  match s with
  | String "+"%char r => (false, r)
  | String "-"%char r => (true, r)
  | _ => (false, s)
  end.

(** The digit scan of a base-10 literal.  Single underscores may separate
    digits; two in a row, or one at the end, are refused.  The result is the
    number of digits read, their value, and the text left over. *)
Fixpoint scan_digits (prev_underscore : bool) (ndigits : nat) (acc : Z)
         (s : string) : option (nat * Z * string) :=
  match s with
  | String c r =>
      if is_underscore c then
        if prev_underscore then None else scan_digits true ndigits acc r
      else
        match digit_value c with
        | Some d => scan_digits false (S ndigits) (10 * acc + d)%Z r
        | None => if prev_underscore then None else Some (ndigits, acc, s)
        end
  | EmptyString =>
      if prev_underscore then None else Some (ndigits, acc, s)
  end.

(** The interpreter's limit on the digits of a decimal literal
    ([sys.get_int_max_str_digits()], 4300 by default; 0 switches it off). *)
Definition int_max_str_digits : nat := 4300.

(** [int(s)] for a [str] argument of ASCII text: [Some n] is the value,
    [None] stands for the [ValueError] it raises. *)
Definition int (s : string) : option Z :=
  let (neg, body) := take_sign (lstrip s) in
  match body with
  | String c _ =>
      if is_underscore c then None
      else
        match scan_digits false 0 0%Z body with
        | Some (ndigits, v, rest) =>
            if (ndigits =? 0)%nat then None
            else if ((0 <? int_max_str_digits) && (int_max_str_digits <? ndigits))%nat
                 then None
            else
              match lstrip rest with
              | EmptyString => Some (if neg then (- v)%Z else v)
              | String _ _ => None
              end
        | None => None
        end
  | EmptyString => None
  end.

(** A [dict] whose keys and values are strings, in insertion order. *)
Definition dict := list (string * string).

(** [d[k] = v]: an existing key keeps its place and takes the new value, a
    new key goes to the end. *)
Fixpoint setitem (k v : string) (d : dict) : dict :=
  match d with
  | [] => [(k, v)]
  | (k', v') :: r =>
      if String.eqb k' k then (k, v) :: r else (k', v') :: setitem k v r
  end.

(** [d.get(k)]. *)
Fixpoint get (k : string) (d : dict) : option string :=
  match d with
  | [] => None
  | (k', v) :: r => if String.eqb k' k then Some v else get k r
  end.

(** [s in xs] for a collection of strings. *)
Definition mem (s : string) (xs : list string) : bool :=
  existsb (String.eqb s) xs.

End Py.

(** ** The [requests] library, as far as the module uses it *)

Module requests.

(** A decoded JSON document; numbers are kept as their literal text. *)
#[local] Unset Elimination Schemes.
Inductive json : Type :=
| JNull
| JBool (b : bool)
| JNumber (literal : string)
| JString (s : string)
| JArray (items : list json)
| JObject (members : list (string * json)).
#[local] Set Elimination Schemes.

(** One GET request: the three arguments of [requests.get]. *)
Record Request : Type := mkRequest {
  req_url : string;
  req_headers : Py.dict;
  req_params : Py.dict
}.

(** What comes back: the transport failed, or a response arrived whose body
    decodes to a JSON value or does not decode. *)
Inductive Reply : Type :=
| TransportFailed
| Arrived (decoded : option json).

(** The network: the requests issued so far, oldest first, and the remote
    side, which answers a request knowing the ones before it. *)
Record Network : Type := mkNetwork {
  sent : list Request;
  remote : list Request -> Request -> Reply
}.

End requests.

Import requests.

(** ** Exceptions, state and the monad the methods run in *)

Inductive exn : Type :=
| ValueError (msg : string)
| AttributeError (name : string)
| RequestException
| JSONDecodeError.

Inductive result (A : Type) : Type :=
| Ok (a : A)
| Raise (e : exn).
Arguments Ok {A} a.
Arguments Raise {A} e.

(** The instance attributes.  [params] is unset until a method assigns it. *)
Record APIX : Type := mkAPIX {
  key : string;
  host : string;
  APIheaders : Py.dict;
  params : option Py.dict
}.

Record State : Type := mkState {
  self : APIX;
  net : Network
}.

Definition M (A : Type) : Type := State -> result A * State.

Definition ret {A : Type} (a : A) : M A := fun st => (Ok a, st).

Definition raise {A : Type} (e : exn) : M A := fun st => (Raise e, st).

Definition bind {A B : Type} (m : M A) (k : A -> M B) : M B :=
  fun st =>
    match m st with
    | (Ok a, st') => k a st'
    | (Raise e, st') => (Raise e, st')
    end.

Notation "x <- m ;; k" := (bind m (fun x => k))
  (at level 61, m at next level, right associativity).
Notation "m ;;; k" := (bind m (fun _ => k))
  (at level 61, right associativity).

(** [try: m except ValueError: handler]. *)
Definition except_ValueError {A : Type} (m : M A) (handler : M A) : M A :=
  fun st =>
    match m st with
    | (Raise (ValueError _), st') => handler st'
    | r => r
    end.

(** [int(s)] as a statement. *)
Definition int (s : string) : M Z :=
  match Py.int s with
  | Some n => ret n
  | None => raise (ValueError "invalid literal for int() with base 10")
  end.

(** [self.params = d]. *)
Definition assign_params (d : Py.dict) : M unit :=
  fun st =>
    let c := self st in
    (Ok tt,
     mkState (mkAPIX (key c) (host c) (APIheaders c) (Some d)) (net st)).

(** [self.params[k] = v]. *)
Definition params_setitem (k v : string) : M unit :=
  fun st =>
    let c := self st in
    match params c with
    | Some d =>
        (Ok tt,
         mkState (mkAPIX (key c) (host c) (APIheaders c) (Some (Py.setitem k v d)))
                 (net st))
    | None => (Raise (AttributeError "params"), st)
    end.

(** [requests.get(url, headers = self.APIheaders, params = self.params)]: the
    request is logged, then the remote side answers. *)
Definition requests_get (url : string) : M (option json) :=
  fun st =>
    let c := self st in
    match params c with
    | Some d =>
        let req := mkRequest url (APIheaders c) d in
        let st' := mkState c (mkNetwork (sent (net st) ++ [req]) (remote (net st))) in
        match remote (net st) (sent (net st)) req with
        | TransportFailed => (Raise RequestException, st')
        | Arrived body => (Ok body, st')
        end
    | None => (Raise (AttributeError "params"), st)
    end.

(** [response.json()]. *)
Definition response_json (response : option json) : M json :=
  match response with
  | Some j => ret j
  | None => raise JSONDecodeError
  end.

(** [if b: m]. *)
Definition when (b : bool) (m : M unit) : M unit := if b then m else ret tt.

(** [if (x != None): self.params[k] = x]. *)
Definition setitem_if_supplied (k : string) (x : option string) : M unit :=
  match x with
  | Some v => params_setitem k v
  | None => ret tt
  end.

(** ** The class [APIX] *)

Definition default_host : string := "twitter-api45.p.rapidapi.com".

(** [APIX(key, host)]: the attributes after [__init__] has run. *)
Definition __init__ (key host : string) : APIX :=
  let APIheaders := [] in
  let APIheaders := Py.setitem "X-RapidAPI-Key" key APIheaders in
  let APIheaders := Py.setitem "X-RapidAPI-Host" host APIheaders in
  mkAPIX key host APIheaders None.

Definition getLatestReplies (id : string) : M json :=
  id_int <- except_ValueError (int id) (raise (ValueError "Invalid Tweet ID")) ;;
  assign_params [] ;;;
  params_setitem "id" id ;;;
  let url := "https://twitter-api45.p.rapidapi.com/latest_replies.php" in
  response <- requests_get url ;;
  response_json response.

Definition getRetweets (id : string) : M json :=
  id_int <- except_ValueError (int id) (raise (ValueError "Invalid Tweet ID")) ;;
  assign_params [] ;;;
  params_setitem "id" id ;;;
  let url := "https://twitter-api45.p.rapidapi.com/retweets.php" in
  response <- requests_get url ;;
  response_json response.

Definition types : list string := ["TOP"; "LATEST"; "MEDIA"; "PEOPLE"; "LISTS"].

Definition searchTweet (keyword search_type : string) (cursor : option string)
  : M json :=
  let search_type := Py.upper search_type in
  when (negb (Py.mem search_type types) && negb (String.eqb search_type ""))
       (raise (ValueError
          "Invalid search_type. The search_type does not belong to [TOP, LATEST, MEDIA, PEOPLE, LISTS] ")) ;;;
  assign_params [] ;;;
  params_setitem "query" keyword ;;;
  when (Py.mem search_type types) (params_setitem "search_types" search_type) ;;;
  setitem_if_supplied "cursor" cursor ;;;
  let url := "https://twitter-api45.p.rapidapi.com/search.php" in
  response <- requests_get url ;;
  response_json response.

Definition getTweetInfo (id : string) : M json :=
  id_int <- except_ValueError (int id) (raise (ValueError "Invalid Tweet ID")) ;;
  assign_params [] ;;;
  params_setitem "id" id ;;;
  let url := "https://twitter-api45.p.rapidapi.com/tweet.php" in
  response <- requests_get url ;;
  response_json response.

Definition getTweetThread (id : string) (cursor : option string) : M json :=
  id_int <- except_ValueError (int id) (raise (ValueError "Invalid Tweet ID")) ;;
  assign_params [] ;;;
  params_setitem "id" id ;;;
  setitem_if_supplied "cursor" cursor ;;;
  let url := "https://twitter-api45.p.rapidapi.com/tweet_thread.php" in
  response <- requests_get url ;;
  response_json response.

Definition getUserInfo (screenname : string) (twitter_id : option string)
  : M json :=
  assign_params [] ;;;
  params_setitem "screenname" screenname ;;;
  setitem_if_supplied "rest_id" twitter_id ;;;
  let url := "https://twitter-api45.p.rapidapi.com/screenname.php" in
  response <- requests_get url ;;
  response_json response.

Definition getUserTimeline (screenname : string)
           (twitter_id cursor : option string) : M json :=
  assign_params [] ;;;
  params_setitem "screenname" screenname ;;;
  setitem_if_supplied "rest_id" twitter_id ;;;
  setitem_if_supplied "cursor" cursor ;;;
  let url := "https://twitter-api45.p.rapidapi.com/timeline.php" in
  response <- requests_get url ;;
  response_json response.

(** ** Calls, and what a call is observed to do *)

(** A method call with its arguments; an optional argument left out (or
    passed as [None]) is [None]. *)
Inductive Call : Type :=
| LatestReplies (id : string)
| Retweets (id : string)
| SearchTweet (keyword search_type : string) (cursor : option string)
| TweetInfo (id : string)
| TweetThread (id : string) (cursor : option string)
| UserInfo (screenname : string) (twitter_id : option string)
| UserTimeline (screenname : string) (twitter_id cursor : option string).

Definition run (c : Call) : M json :=
  match c with
  | LatestReplies id => getLatestReplies id
  | Retweets id => getRetweets id
  | SearchTweet keyword search_type cursor => searchTweet keyword search_type cursor
  | TweetInfo id => getTweetInfo id
  | TweetThread id cursor => getTweetThread id cursor
  | UserInfo screenname twitter_id => getUserInfo screenname twitter_id
  | UserTimeline screenname twitter_id cursor =>
      getUserTimeline screenname twitter_id cursor
  end.

(** The endpoint name of each method, as the remote API lists them. *)
Definition endpoint (c : Call) : string :=
  match c with
  | LatestReplies _ => "latest_replies"
  | Retweets _ => "retweets"
  | SearchTweet _ _ _ => "search"
  | TweetInfo _ => "tweet"
  | TweetThread _ _ => "tweet_thread"
  | UserInfo _ _ => "screenname"
  | UserTimeline _ _ _ => "timeline"
  end.

(** The result of a computation, the state it leaves, and the requests it
    issued: the part of the log that was not there before. *)
Definition outcome {A : Type} (m : M A) (st : State) : result A := fst (m st).

Definition state_after {A : Type} (m : M A) (st : State) : State := snd (m st).

Definition sent_by {A : Type} (m : M A) (st : State) : list Request :=
  skipn (length (sent (net st))) (sent (net (state_after m st))).

(** The exception the methods raise on a bad argument. *)
Definition is_ValueError {A : Type} (r : result A) : bool :=
  match r with
  | Raise (ValueError _) => true
  | _ => false
  end.

(** A caller that makes the calls of [cs] in turn on one instance, going on
    after a call that raised. *)
Fixpoint run_all (cs : list Call) (st : State) : State :=
  match cs with
  | [] => st
  | c :: rest => run_all rest (state_after (run c) st)
  end.

(** A fresh instance on a network. *)
Definition fresh (key host : string) (n : Network) : State :=
  mkState (__init__ key host) n.

(** ** A closed form of the methods, used by the proofs *)

(** The parameters an optional argument contributes. *)
Definition optional (k : string) (x : option string) : Py.dict :=
  match x with
  | Some v => [(k, v)]
  | None => []
  end.

(** Storing [d] in [self.params], issuing the request and decoding the reply,
    in one step. *)
Definition perform (url : string) (d : Py.dict) (st : State) : result json * State :=
  let c := self st in
  let req := mkRequest url (APIheaders c) d in
  (match remote (net st) (sent (net st)) req with
   | TransportFailed => Raise RequestException
   | Arrived None => Raise JSONDecodeError
   | Arrived (Some j) => Ok j
   end,
   mkState (mkAPIX (key c) (host c) (APIheaders c) (Some d))
           (mkNetwork (sent (net st) ++ [req]) (remote (net st)))).

(** What a call validates and builds: the exception of a refused argument, or
    the parameters of the request. *)
Definition plan (c : Call) : exn + Py.dict :=
  match c with
  | LatestReplies id | Retweets id | TweetInfo id =>
      match Py.int id with
      | Some _ => inr [("id", id)]
      | None => inl (ValueError "Invalid Tweet ID")
      end
  | TweetThread id cursor =>
      match Py.int id with
      | Some _ => inr (("id", id) :: optional "cursor" cursor)
      | None => inl (ValueError "Invalid Tweet ID")
      end
  | SearchTweet keyword search_type cursor =>
      let t := Py.upper search_type in
      if Py.mem t types then
        inr (("query", keyword) :: ("search_types", t) :: optional "cursor" cursor)
      else if String.eqb t "" then
        inr (("query", keyword) :: optional "cursor" cursor)
      else
        inl (ValueError
          "Invalid search_type. The search_type does not belong to [TOP, LATEST, MEDIA, PEOPLE, LISTS] ")
  | UserInfo screenname twitter_id =>
      inr (("screenname", screenname) :: optional "rest_id" twitter_id)
  | UserTimeline screenname twitter_id cursor =>
      inr (("screenname", screenname)
             :: optional "rest_id" twitter_id ++ optional "cursor" cursor)
  end.

(** The URL every method spells out in full. *)
Definition url_of (c : Call) : string :=
  "https://twitter-api45.p.rapidapi.com/" ++ endpoint c ++ ".php".

Definition planned (c : Call) (st : State) : result json * State :=
  match plan c with
  | inl e => (Raise e, st)
  | inr d => perform (url_of c) d st
  end.

(** ** The vocabulary of the specification *)

(** The URL the specification gives a method on host [h]:
    [https://<h>/<endpoint>.php]. *)
Definition claimed_url (h : string) (c : Call) : string :=
  "https://" ++ h ++ "/" ++ endpoint c ++ ".php".

(** The specification's condition for a local failure: an id that does not
    parse as an integer, or a search type that is not empty and, in upper
    case, is none of the five recognised values. *)
Definition invalid_argument (c : Call) : Prop :=
  match c with
  | LatestReplies id | Retweets id | TweetInfo id | TweetThread id _ =>
      Py.int id = None
  | SearchTweet _ search_type _ =>
      search_type <> "" /\ ~ In (Py.upper search_type) types
  | UserInfo _ _ | UserTimeline _ _ _ => False
  end.

(** The four methods that take a tweet id, called on the same id. *)
Definition id_calls (id : string) (cursor : option string) : list Call :=
  [LatestReplies id; Retweets id; TweetInfo id; TweetThread id cursor].

(** The header dictionary of an instance made from [k] and [h]. *)
Definition headers_of (k h : string) : Py.dict :=
  [("X-RapidAPI-Key", k); ("X-RapidAPI-Host", h)].

(** A network for the examples: nothing sent yet, and every request is
    answered by the JSON value [null]. *)
Definition idle : Network := mkNetwork [] (fun _ _ => Arrived (Some JNull)).

(** ** Vocabulary of the further properties *)

(** The requests the calls of [cs] issue, each call taken on its own from the
    state [st]. *)
Definition requests_of (cs : list Call) (st : State) : list Request :=
  flat_map (fun c => sent_by (run c) st) cs.

(** The parameters of the latest request of [l], or [d] when [l] is empty. *)
Definition latest_params (l : list Request) (d : option Py.dict) : option Py.dict :=
  last (map (fun r => Some (req_params r)) l) d.

(** The six parameter names the methods use. *)
Definition param_names : list string :=
  ["id"; "cursor"; "query"; "search_types"; "screenname"; "rest_id"].

(** Classes of characters of an id. *)
Definition isdigit (c : ascii) : bool :=
  match Py.digit_value c with
  | Some _ => true
  | None => false
  end.

Definition is_sign (c : ascii) : bool := Ascii.eqb c "+" || Ascii.eqb c "-".

(** A character no integer literal holds: neither a digit, nor white space,
    nor a sign, nor an underscore. *)
Definition foreign (c : ascii) : bool :=
  negb (isdigit c || Py.isspace c || is_sign c || Py.is_underscore c).

(** Text of ASCII characters only (code points below 128). *)
Fixpoint is_ascii (s : string) : bool :=
  match s with
  | EmptyString => true
  | String c r => (N_of_ascii c <? 128)%N && is_ascii r
  end.

Fixpoint all_digits (s : string) : bool :=
  match s with
  | EmptyString => true
  | String c r => isdigit c && all_digits r
  end.

Fixpoint contains (p : ascii -> bool) (s : string) : bool :=
  match s with
  | EmptyString => false
  | String c r => p c || contains p r
  end.

(** ** Proofs *)

Section ClosedForm.

Variable st : State.

Ltac reply :=
  unfold perform; cbn;
  match goal with
  | |- context [remote ?n ?l ?r] => destruct (remote n l r) as [|[j|]]; reflexivity
  end.

Ltac by_cases id :=
  unfold planned, plan, bind, except_ValueError, int;
  destruct (Py.int id); cbn; [ | reflexivity ].

Lemma getLatestReplies_planned id :
  getLatestReplies id st = planned (LatestReplies id) st.
Proof. unfold getLatestReplies. by_cases id. reply. Qed.

Lemma getRetweets_planned id :
  getRetweets id st = planned (Retweets id) st.
Proof. unfold getRetweets. by_cases id. reply. Qed.

Lemma getTweetInfo_planned id :
  getTweetInfo id st = planned (TweetInfo id) st.
Proof. unfold getTweetInfo. by_cases id. reply. Qed.

Lemma getTweetThread_planned id cursor :
  getTweetThread id cursor st = planned (TweetThread id cursor) st.
Proof. unfold getTweetThread. by_cases id. destruct cursor; reply. Qed.

Lemma searchTweet_planned keyword search_type cursor :
  searchTweet keyword search_type cursor st
  = planned (SearchTweet keyword search_type cursor) st.
Proof.
  unfold searchTweet, planned, plan, bind, when.
  destruct (Py.mem (Py.upper search_type) types);
    [ | destruct (String.eqb (Py.upper search_type) "") ]; cbn;
    try reflexivity; destruct cursor; reply.
Qed.

Lemma getUserInfo_planned screenname twitter_id :
  getUserInfo screenname twitter_id st = planned (UserInfo screenname twitter_id) st.
Proof. unfold getUserInfo, planned, plan, bind. destruct twitter_id; reply. Qed.

Lemma getUserTimeline_planned screenname twitter_id cursor :
  getUserTimeline screenname twitter_id cursor st
  = planned (UserTimeline screenname twitter_id cursor) st.
Proof.
  unfold getUserTimeline, planned, plan, bind.
  destruct twitter_id, cursor; reply.
Qed.

Lemma run_planned c : run c st = planned c st.
Proof.
  destruct c; cbn [run].
  - apply getLatestReplies_planned.
  - apply getRetweets_planned.
  - apply searchTweet_planned.
  - apply getTweetInfo_planned.
  - apply getTweetThread_planned.
  - apply getUserInfo_planned.
  - apply getUserTimeline_planned.
Qed.

End ClosedForm.

(** *** Strings and membership *)

Lemma upper_empty s : Py.upper s = "" <-> s = "".
Proof. destruct s; cbn; split; intro H; try reflexivity; discriminate H. Qed.

Lemma mem_In s xs : Py.mem s xs = true <-> In s xs.
Proof.
  unfold Py.mem. rewrite existsb_exists. split.
  - intros [x [Hx He]]. apply String.eqb_eq in He. subst x. exact Hx.
  - intro H. exists s. split; [exact H | apply String.eqb_refl].
Qed.

Lemma mem_not_In s xs : Py.mem s xs = false <-> ~ In s xs.
Proof.
  rewrite <- mem_In. destruct (Py.mem s xs); split; intro H;
    try reflexivity; try discriminate; try (intro H'; discriminate H').
  exfalso. apply H. reflexivity.
Qed.

(** *** The log only grows, by what [sent_by] reports *)

Lemma skipn_length_app {A : Type} (l r : list A) : skipn (length l) (l ++ r) = r.
Proof. induction l as [|a l IH]; [reflexivity | exact IH]. Qed.

Lemma skipn_length {A : Type} (l : list A) : skipn (length l) l = [].
Proof. induction l as [|a l IH]; [reflexivity | exact IH]. Qed.

Lemma sent_by_run c st :
  sent_by (run c) st =
  match plan c with
  | inl _ => []
  | inr d => [mkRequest (url_of c) (APIheaders (self st)) d]
  end.
Proof.
  unfold sent_by, state_after. rewrite run_planned. unfold planned.
  destruct (plan c) as [e|d]; cbn.
  - apply skipn_length.
  - apply skipn_length_app.
Qed.

Lemma state_after_run c st :
  state_after (run c) st =
  match plan c with
  | inl _ => st
  | inr d => snd (perform (url_of c) d st)
  end.
Proof.
  unfold state_after. rewrite run_planned. unfold planned.
  destruct (plan c); reflexivity.
Qed.

Lemma plan_raises_ValueError c e : plan c = inl e -> exists msg, e = ValueError msg.
Proof.
  destruct c; cbn [plan]; try discriminate;
    try (destruct (Py.int id); [discriminate | intro H; injection H as <-; eauto]).
  destruct (Py.mem (Py.upper search_type) types); [discriminate|].
  destruct (String.eqb (Py.upper search_type) ""); [discriminate|].
  intro H; injection H as <-; eauto.
Qed.

Lemma perform_not_ValueError url d st : is_ValueError (fst (perform url d st)) = false.
Proof.
  unfold perform; cbn.
  match goal with |- context [remote ?n ?l ?r] => destruct (remote n l r) as [|[j|]] end;
    reflexivity.
Qed.

Lemma is_ValueError_run c st :
  is_ValueError (outcome (run c) st) =
  match plan c with
  | inl _ => true
  | inr _ => false
  end.
Proof.
  unfold outcome. rewrite run_planned. unfold planned.
  destruct (plan c) as [e|d] eqn:Hp.
  - destruct (plan_raises_ValueError _ _ Hp) as [msg ->]. reflexivity.
  - apply perform_not_ValueError.
Qed.

(** *** The instance's configuration is never touched *)

Lemma self_after_run c st :
  key (self (state_after (run c) st)) = key (self st)
  /\ host (self (state_after (run c) st)) = host (self st)
  /\ APIheaders (self (state_after (run c) st)) = APIheaders (self st).
Proof.
  rewrite state_after_run. destruct (plan c); cbn; auto.
Qed.

Lemma self_after_run_all cs : forall st,
  key (self (run_all cs st)) = key (self st)
  /\ host (self (run_all cs st)) = host (self st)
  /\ APIheaders (self (run_all cs st)) = APIheaders (self st).
Proof.
  induction cs as [|c cs IH]; intro st; cbn [run_all]; [auto|].
  destruct (IH (state_after (run c) st)) as (Hk & Hh & Ha).
  destruct (self_after_run c st) as (Hk' & Hh' & Ha').
  repeat split; congruence.
Qed.

Lemma outcome_run c st :
  outcome (run c) st =
  match plan c with
  | inl e => Raise e
  | inr d => fst (perform (url_of c) d st)
  end.
Proof.
  unfold outcome. rewrite run_planned. unfold planned.
  destruct (plan c); reflexivity.
Qed.

Lemma headers_fresh_run_all k h n pre :
  APIheaders (self (run_all pre (fresh k h n))) = headers_of k h.
Proof.
  destruct (self_after_run_all pre (fresh k h n)) as (_ & _ & Ha).
  rewrite Ha. reflexivity.
Qed.

(** ** The claims *)

(** C1, as the specification states it, fails: a client made with the host
    [example.com] sends [getUserInfo("alice")] to the URL of the default
    domain, which is not [https://example.com/screenname.php]. *)
Lemma C1_custom_host_not_in_url :
  sent_by (getUserInfo "alice" None) (fresh "secret" "example.com" idle)
  = [mkRequest "https://twitter-api45.p.rapidapi.com/screenname.php"
               [("X-RapidAPI-Key", "secret"); ("X-RapidAPI-Host", "example.com")]
               [("screenname", "alice")]]
  /\ "https://twitter-api45.p.rapidapi.com/screenname.php"
     <> claimed_url "example.com" (UserInfo "alice" None).
Proof. split; [reflexivity | discriminate]. Qed.

(** C1, amended: for a client made with any host [h], after any earlier calls,
    every request of every one of the seven methods goes to
    [https://twitter-api45.p.rapidapi.com/<endpoint>.php], the URL of the
    default domain; the configured host is carried by the [X-RapidAPI-Host]
    header of each such request, and a call whose arguments pass validation
    issues exactly one request. *)
Theorem C1_url_is_default_domain k h pre n c :
  let st := run_all pre (fresh k h n) in
  Forall (fun req =>
            req_url req = claimed_url default_host c
            /\ req_url req
               = "https://twitter-api45.p.rapidapi.com/" ++ endpoint c ++ ".php"
            /\ Py.get "X-RapidAPI-Host" (req_headers req) = Some h)
         (sent_by (run c) st)
  /\ (is_ValueError (outcome (run c) st) = false
      <-> exists req, sent_by (run c) st = [req]).
Proof.
  intro st. rewrite sent_by_run, is_ValueError_run.
  destruct (plan c) as [e|d]; split.
  - constructor.
  - split; [discriminate | intros [req H]; discriminate H].
  - constructor; [|constructor]. cbn [req_url req_headers].
    unfold st. rewrite headers_fresh_run_all. repeat split.
  - split; [eauto | reflexivity].
Qed.

Lemma C1_url_is_default_domain_witness :
  exists req,
    sent_by (run (TweetThread "7" None))
            (run_all [UserInfo "alice" None] (fresh "secret" "example.com" idle))
    = [req].
Proof.
  refine (proj1 (proj2 (C1_url_is_default_domain "secret" "example.com"
                          [UserInfo "alice" None] idle (TweetThread "7" None))) _).
  reflexivity.
Defined.

(** C2: a call raises [ValueError] (the specification's InvalidArgument)
    exactly when its id does not parse as an integer (the four id methods) or
    its search type is not empty and, in upper case, not one of the five
    values ([searchTweet]); and in each such case the exception carries the
    method's message, no request is issued and the log of the network is what
    it was. *)
Theorem C2_invalid_argument_iff c st :
  (is_ValueError (outcome (run c) st) = true <-> invalid_argument c)
  /\ (invalid_argument c ->
      (exists msg, outcome (run c) st = Raise (ValueError msg))
      /\ sent_by (run c) st = []
      /\ sent (net (state_after (run c) st)) = sent (net st)).
Proof.
  rewrite is_ValueError_run, outcome_run, sent_by_run, state_after_run.
  assert (Hiff : (match plan c with inl _ => true | inr _ => false end) = true
                 <-> invalid_argument c).
  { destruct c; cbn [plan invalid_argument];
      try (destruct (Py.int id); split; intro H; (reflexivity || discriminate H));
      try (split; [discriminate | intros []]).
    destruct (Py.mem (Py.upper search_type) types) eqn:Hm.
    - apply mem_In in Hm. split; [discriminate | intros [_ Hn]; contradiction].
    - apply mem_not_In in Hm.
      destruct (String.eqb (Py.upper search_type) "") eqn:He.
      + apply String.eqb_eq in He. apply (proj1 (upper_empty _)) in He.
        split; [discriminate | intros [Hn _]; contradiction].
      + apply String.eqb_neq in He. split; [intros _ | reflexivity].
        split; [intro Hs; apply He; apply (proj2 (upper_empty _)); exact Hs | exact Hm]. }
  split; [exact Hiff|]. intro Hinv. apply Hiff in Hinv.
  destruct (plan c) as [e|d] eqn:Hp; [|discriminate Hinv].
  destruct (plan_raises_ValueError _ _ Hp) as [msg ->]. eauto.
Qed.

Lemma C2_invalid_argument_iff_witness :
  sent_by (run (SearchTweet "x" "bogus" None)) (fresh "secret" default_host idle) = []
  /\ sent_by (run (TweetInfo "3.0")) (fresh "secret" default_host idle) = [].
Proof.
  split.
  - refine (proj1 (proj2 (proj2 (C2_invalid_argument_iff
                                   (SearchTweet "x" "bogus" None)
                                   (fresh "secret" default_host idle)) _))).
    split; [discriminate | cbn; intuition discriminate].
  - refine (proj1 (proj2 (proj2 (C2_invalid_argument_iff
                                   (TweetInfo "3.0")
                                   (fresh "secret" default_host idle)) _))).
    reflexivity.
Defined.

(** C3: when the id parses as an integer (negative numbers and zero
    included), [getLatestReplies], [getRetweets], [getTweetInfo] and
    [getTweetThread] each issue exactly one request, whose [id] parameter is
    the argument string itself; [getTweetThread] sends [cursor] exactly when a
    cursor was supplied, with the supplied value. *)
Theorem C3_id_sent_verbatim id n cursor st :
  Py.int id = Some n ->
  sent_by (getLatestReplies id) st
  = [mkRequest "https://twitter-api45.p.rapidapi.com/latest_replies.php"
               (APIheaders (self st)) [("id", id)]]
  /\ sent_by (getRetweets id) st
     = [mkRequest "https://twitter-api45.p.rapidapi.com/retweets.php"
                  (APIheaders (self st)) [("id", id)]]
  /\ sent_by (getTweetInfo id) st
     = [mkRequest "https://twitter-api45.p.rapidapi.com/tweet.php"
                  (APIheaders (self st)) [("id", id)]]
  /\ (exists req,
        sent_by (getTweetThread id cursor) st = [req]
        /\ req_url req = "https://twitter-api45.p.rapidapi.com/tweet_thread.php"
        /\ req_params req = ("id", id) :: optional "cursor" cursor
        /\ Py.get "id" (req_params req) = Some id
        /\ Py.get "cursor" (req_params req) = cursor).
Proof.
  intro Hid.
  pose proof (sent_by_run (LatestReplies id) st) as H1.
  pose proof (sent_by_run (Retweets id) st) as H2.
  pose proof (sent_by_run (TweetInfo id) st) as H3.
  pose proof (sent_by_run (TweetThread id cursor) st) as H4.
  cbn [run plan] in H1, H2, H3, H4. rewrite Hid in H1, H2, H3, H4.
  repeat split; try assumption.
  eexists. split; [exact H4|]. cbn [req_url req_params].
  repeat split. destruct cursor; reflexivity.
Qed.

Lemma C3_id_sent_verbatim_witness :
  Py.int "-012" = Some (-12)%Z
  /\ sent_by (getLatestReplies "-012") (fresh "secret" default_host idle)
     = [mkRequest "https://twitter-api45.p.rapidapi.com/latest_replies.php"
                  (headers_of "secret" default_host) [("id", "-012")]]
  /\ Py.int "0" = Some 0%Z
  /\ sent_by (getTweetInfo "0") (fresh "secret" default_host idle)
     = [mkRequest "https://twitter-api45.p.rapidapi.com/tweet.php"
                  (headers_of "secret" default_host) [("id", "0")]].
Proof.
  split; [reflexivity|]. split.
  - exact (proj1 (C3_id_sent_verbatim "-012" (-12)%Z None
                    (fresh "secret" default_host idle) eq_refl)).
  - split; [reflexivity|].
    exact (proj1 (proj2 (proj2 (C3_id_sent_verbatim "0" 0%Z None
                    (fresh "secret" default_host idle) eq_refl)))).
Defined.

(** C4: [searchTweet] puts its search type in upper case before it checks it
    and before it sends it.  With ["latest"] it sends [search_types=LATEST],
    whatever the keyword; a search type whose upper case is not empty and none
    of the five values, such as ["bogus"], makes it raise [ValueError] with no
    request issued; with [""] it sends no [search_types] parameter and still
    sends [query=keyword]. *)
Theorem C4_search_type_upper_cased keyword cursor st :
  sent_by (searchTweet keyword "latest" cursor) st
  = [mkRequest "https://twitter-api45.p.rapidapi.com/search.php"
               (APIheaders (self st))
               (("query", keyword) :: ("search_types", "LATEST")
                  :: optional "cursor" cursor)]
  /\ (forall search_type,
        In (Py.upper search_type) types ->
        sent_by (searchTweet keyword search_type cursor) st
        = [mkRequest "https://twitter-api45.p.rapidapi.com/search.php"
                     (APIheaders (self st))
                     (("query", keyword) :: ("search_types", Py.upper search_type)
                        :: optional "cursor" cursor)])
  /\ (forall search_type,
        Py.upper search_type <> "" ->
        ~ In (Py.upper search_type) types ->
        (exists msg,
           outcome (searchTweet keyword search_type cursor) st
           = Raise (ValueError msg))
        /\ sent_by (searchTweet keyword search_type cursor) st = [])
  /\ (exists msg,
        outcome (searchTweet keyword "bogus" cursor) st = Raise (ValueError msg))
  /\ sent_by (searchTweet keyword "bogus" cursor) st = []
  /\ (exists req,
        sent_by (searchTweet keyword "" cursor) st = [req]
        /\ req_params req = ("query", keyword) :: optional "cursor" cursor
        /\ Py.get "search_types" (req_params req) = None
        /\ Py.get "query" (req_params req) = Some keyword).
Proof.
  assert (Hin : forall search_type,
             In (Py.upper search_type) types ->
             sent_by (searchTweet keyword search_type cursor) st
             = [mkRequest "https://twitter-api45.p.rapidapi.com/search.php"
                          (APIheaders (self st))
                          (("query", keyword) :: ("search_types", Py.upper search_type)
                             :: optional "cursor" cursor)]).
  { intros search_type Hm. apply mem_In in Hm.
    pose proof (sent_by_run (SearchTweet keyword search_type cursor) st) as H.
    cbn [run plan] in H. rewrite Hm in H. exact H. }
  assert (Hout : forall search_type,
             Py.upper search_type <> "" ->
             ~ In (Py.upper search_type) types ->
             (exists msg,
                outcome (searchTweet keyword search_type cursor) st
                = Raise (ValueError msg))
             /\ sent_by (searchTweet keyword search_type cursor) st = []).
  { intros search_type Hne Hm. apply mem_not_In in Hm.
    apply String.eqb_neq in Hne.
    pose proof (sent_by_run (SearchTweet keyword search_type cursor) st) as H.
    pose proof (outcome_run (SearchTweet keyword search_type cursor) st) as H'.
    cbn [run plan] in H, H'. rewrite Hm, Hne in H, H'. eauto. }
  assert (Hbogus : Py.upper "bogus" <> "" /\ ~ In (Py.upper "bogus") types).
  { split; [discriminate | cbn; intuition discriminate]. }
  split; [apply (Hin "latest"); cbn; auto|].
  split; [exact Hin|]. split; [exact Hout|].
  split; [apply (Hout "bogus"); apply Hbogus|].
  split; [apply (Hout "bogus"); apply Hbogus|].
  eexists. split; [exact (sent_by_run (SearchTweet keyword "" cursor) st)|].
  cbn [req_params]. repeat split; destruct cursor; reflexivity.
Qed.

Lemma C4_search_type_upper_cased_witness :
  sent_by (searchTweet "x" "Media" (Some "p2")) (fresh "secret" default_host idle)
  = [mkRequest "https://twitter-api45.p.rapidapi.com/search.php"
               (headers_of "secret" default_host)
               [("query", "x"); ("search_types", "MEDIA"); ("cursor", "p2")]]
  /\ sent_by (searchTweet "x" "tops" (Some "p2")) (fresh "secret" default_host idle)
     = [].
Proof.
  split.
  - refine (proj1 (proj2 (C4_search_type_upper_cased "x" (Some "p2")
                            (fresh "secret" default_host idle))) "Media" _).
    cbn; auto.
  - refine (proj2 (proj1 (proj2 (proj2 (C4_search_type_upper_cased "x" (Some "p2")
                            (fresh "secret" default_host idle)))) "tops" _ _)).
    + discriminate.
    + cbn; intuition discriminate.
Defined.

(** C5: [getUserInfo(s)] sends the single parameter [screenname=s];
    [getUserInfo(s, t)] sends [screenname=s] and [rest_id=t];
    [getUserTimeline(s, None, c)] sends [screenname=s] and [cursor=c] and no
    [rest_id].  In general each optional parameter is in the request exactly
    when it was supplied, with the supplied value. *)
Theorem C5_optional_params_iff_supplied s t c twitter_id cursor st :
  sent_by (getUserInfo s None) st
  = [mkRequest "https://twitter-api45.p.rapidapi.com/screenname.php"
               (APIheaders (self st)) [("screenname", s)]]
  /\ sent_by (getUserInfo s (Some t)) st
     = [mkRequest "https://twitter-api45.p.rapidapi.com/screenname.php"
                  (APIheaders (self st)) [("screenname", s); ("rest_id", t)]]
  /\ sent_by (getUserTimeline s None (Some c)) st
     = [mkRequest "https://twitter-api45.p.rapidapi.com/timeline.php"
                  (APIheaders (self st)) [("screenname", s); ("cursor", c)]]
  /\ Py.get "rest_id" [("screenname", s); ("cursor", c)] = None
  /\ (exists req,
        sent_by (getUserInfo s twitter_id) st = [req]
        /\ Py.get "screenname" (req_params req) = Some s
        /\ Py.get "rest_id" (req_params req) = twitter_id
        /\ Py.get "cursor" (req_params req) = None)
  /\ (exists req,
        sent_by (getUserTimeline s twitter_id cursor) st = [req]
        /\ Py.get "screenname" (req_params req) = Some s
        /\ Py.get "rest_id" (req_params req) = twitter_id
        /\ Py.get "cursor" (req_params req) = cursor).
Proof.
  split; [exact (sent_by_run (UserInfo s None) st)|].
  split; [exact (sent_by_run (UserInfo s (Some t)) st)|].
  split; [exact (sent_by_run (UserTimeline s None (Some c)) st)|].
  split; [reflexivity|]. split.
  - eexists. split; [exact (sent_by_run (UserInfo s twitter_id) st)|].
    cbn [req_params]. destruct twitter_id; repeat split.
  - eexists. split; [exact (sent_by_run (UserTimeline s twitter_id cursor) st)|].
    cbn [req_params]. destruct twitter_id, cursor; repeat split.
Qed.

Lemma plan_refuses_iff c :
  (match plan c with inl _ => true | inr _ => false end) = true
  <-> invalid_argument c.
Proof.
  destruct c; cbn [plan invalid_argument];
    try (destruct (Py.int id); split; intro H; (reflexivity || discriminate H));
    try (split; [discriminate | intros []]).
  destruct (Py.mem (Py.upper search_type) types) eqn:Hm.
  - apply mem_In in Hm. split; [discriminate | intros [_ Hn]; contradiction].
  - apply mem_not_In in Hm.
    destruct (String.eqb (Py.upper search_type) "") eqn:He.
    + apply String.eqb_eq in He. apply (proj1 (upper_empty _)) in He.
      split; [discriminate | intros [Hn _]; contradiction].
    + apply String.eqb_neq in He. split; [intros _ | reflexivity].
      split; [intro Hs; apply He; apply (proj2 (upper_empty _)); exact Hs | exact Hm].
Qed.

Lemma sends_with_headers c st :
  (invalid_argument c <-> sent_by (run c) st = [])
  /\ (is_ValueError (outcome (run c) st) = false
      <-> exists req,
          sent_by (run c) st = [req] /\ req_headers req = APIheaders (self st))
  /\ (~ invalid_argument c ->
      exists req,
        sent_by (run c) st = [req] /\ req_headers req = APIheaders (self st)).
Proof.
  pose proof (plan_refuses_iff c) as Hiff.
  rewrite sent_by_run, is_ValueError_run.
  destruct (plan c) as [e|d]; (split; [|split]).
  - split; [reflexivity | intros _; apply Hiff; reflexivity].
  - split; [discriminate | intros (req & H & _); discriminate H].
  - intro Hn. exfalso. apply Hn, Hiff. reflexivity.
  - split; [intro H; apply Hiff in H; discriminate H | intro H; discriminate H].
  - split; [intros _; eexists; split; reflexivity | reflexivity].
  - intros _. eexists. split; reflexivity.
Qed.

(** C6: the constructor stores the key and the host and builds the header
    dictionary [{"X-RapidAPI-Key": key, "X-RapidAPI-Host": host}] once.  After
    any earlier calls, each of the seven methods, called with arguments that
    pass validation, issues exactly one request, and that request carries
    exactly this dictionary; a call sends nothing only when its argument is
    refused.  Every call leaves the key, the host and the dictionary of the
    instance as they were. *)
Theorem C6_headers_built_once_and_kept k h :
  APIheaders (__init__ k h) = [("X-RapidAPI-Key", k); ("X-RapidAPI-Host", h)]
  /\ key (__init__ k h) = k
  /\ host (__init__ k h) = h
  /\ (forall pre n c,
        let st := run_all pre (fresh k h n) in
        Forall (fun req =>
                  req_headers req = [("X-RapidAPI-Key", k); ("X-RapidAPI-Host", h)])
               (sent_by (run c) st)
        /\ key (self (state_after (run c) st)) = k
        /\ host (self (state_after (run c) st)) = h
        /\ APIheaders (self (state_after (run c) st))
           = [("X-RapidAPI-Key", k); ("X-RapidAPI-Host", h)])
  /\ (forall c st,
        Forall (fun req => req_headers req = APIheaders (self st))
               (sent_by (run c) st)
        /\ key (self (state_after (run c) st)) = key (self st)
        /\ host (self (state_after (run c) st)) = host (self st)
        /\ APIheaders (self (state_after (run c) st)) = APIheaders (self st))
  /\ (forall pre n c,
        let st := run_all pre (fresh k h n) in
        (invalid_argument c <-> sent_by (run c) st = [])
        /\ (is_ValueError (outcome (run c) st) = false
            <-> exists req,
                sent_by (run c) st = [req]
                /\ req_headers req
                   = [("X-RapidAPI-Key", k); ("X-RapidAPI-Host", h)])
        /\ (~ invalid_argument c ->
            exists req,
              sent_by (run c) st = [req]
              /\ req_headers req
                 = [("X-RapidAPI-Key", k); ("X-RapidAPI-Host", h)]))
  /\ (forall pre n,
        let st := run_all pre (fresh k h n) in
        let sends (m : M json) :=
          exists req,
            sent_by m st = [req]
            /\ req_headers req = [("X-RapidAPI-Key", k); ("X-RapidAPI-Host", h)] in
        (forall id i cursor,
           Py.int id = Some i ->
           sends (getLatestReplies id) /\ sends (getRetweets id)
           /\ sends (getTweetInfo id) /\ sends (getTweetThread id cursor))
        /\ (forall keyword search_type cursor,
              search_type = "" \/ In (Py.upper search_type) types ->
              sends (searchTweet keyword search_type cursor))
        /\ (forall screenname twitter_id cursor,
              sends (getUserInfo screenname twitter_id)
              /\ sends (getUserTimeline screenname twitter_id cursor))).
Proof.
  assert (Hframe : forall c st,
             Forall (fun req => req_headers req = APIheaders (self st))
                    (sent_by (run c) st)
             /\ key (self (state_after (run c) st)) = key (self st)
             /\ host (self (state_after (run c) st)) = host (self st)
             /\ APIheaders (self (state_after (run c) st)) = APIheaders (self st)).
  { intros c st. split; [|apply self_after_run].
    rewrite sent_by_run. destruct (plan c); repeat constructor. }
  assert (Hsend : forall pre n c,
             ~ invalid_argument c ->
             exists req,
               sent_by (run c) (run_all pre (fresh k h n)) = [req]
               /\ req_headers req
                  = [("X-RapidAPI-Key", k); ("X-RapidAPI-Host", h)]).
  { intros pre n c Hv.
    destruct (sends_with_headers c (run_all pre (fresh k h n))) as (_ & _ & H).
    rewrite headers_fresh_run_all in H. exact (H Hv). }
  split; [reflexivity|]. split; [reflexivity|]. split; [reflexivity|].
  split; [|split; [exact Hframe|split]].
  - intros pre n c st.
    destruct (Hframe c st) as (Hf & Hk & Hh & Ha).
    destruct (self_after_run_all pre (fresh k h n)) as (Hk' & Hh' & _).
    unfold st in *. rewrite headers_fresh_run_all in Hf, Ha.
    repeat split; [exact Hf | rewrite Hk; exact Hk' | rewrite Hh; exact Hh'
                  | exact Ha].
  - intros pre n c st.
    pose proof (sends_with_headers c st) as H. unfold st in *.
    rewrite headers_fresh_run_all in H. exact H.
  - intros pre n st sends. unfold sends, st. split; [|split].
    + intros id i cursor Hid.
      repeat split;
        [ apply (Hsend pre n (LatestReplies id))
        | apply (Hsend pre n (Retweets id))
        | apply (Hsend pre n (TweetInfo id))
        | apply (Hsend pre n (TweetThread id cursor)) ];
        cbn [invalid_argument]; rewrite Hid; discriminate.
    + intros keyword search_type cursor Hv.
      apply (Hsend pre n (SearchTweet keyword search_type cursor)).
      cbn [invalid_argument]. intros [Hne Hn]. destruct Hv; contradiction.
    + intros screenname twitter_id cursor. split.
      * apply (Hsend pre n (UserInfo screenname twitter_id)). intros [].
      * apply (Hsend pre n (UserTimeline screenname twitter_id cursor)). intros [].
Qed.

Lemma C6_headers_built_once_and_kept_witness :
  exists req,
    sent_by (getTweetThread "20" (Some "p2"))
            (run_all [SearchTweet "x" "top" None; TweetInfo "oops"]
                     (fresh "secret" "example.com" idle))
    = [req]
    /\ req_headers req
       = [("X-RapidAPI-Key", "secret"); ("X-RapidAPI-Host", "example.com")].
Proof.
  destruct (C6_headers_built_once_and_kept "secret" "example.com")
    as (_ & _ & _ & _ & _ & _ & H).
  specialize (H [SearchTweet "x" "top" None; TweetInfo "oops"] idle).
  cbv zeta in H. destruct H as (Hid & _ & _).
  exact (proj2 (proj2 (proj2 (Hid "20" 20%Z (Some "p2") eq_refl)))).
Defined.

(** C7: the request of a call is a function of its arguments and of the
    configuration of the client alone.  On two instances with the same key and
    host, whatever calls came before on each and whatever the network did, the
    same call issues the same requests (URL, headers and parameters); and a
    call that passes validation leaves in [self.params] exactly the parameters
    it sent, nothing of what was there before. *)
Theorem C7_request_independent_of_history k h c pre1 pre2 n1 n2 :
  let st1 := run_all pre1 (fresh k h n1) in
  let st2 := run_all pre2 (fresh k h n2) in
  sent_by (run c) st1 = sent_by (run c) st2
  /\ (is_ValueError (outcome (run c) st1) = false ->
      exists req,
        sent_by (run c) st1 = [req]
        /\ params (self (state_after (run c) st1)) = Some (req_params req)
        /\ params (self (state_after (run c) st2)) = Some (req_params req))
  /\ (forall s1 s2,
        APIheaders (self s1) = APIheaders (self s2) ->
        sent_by (run c) s1 = sent_by (run c) s2).
Proof.
  intros st1 st2. unfold st1, st2.
  rewrite !sent_by_run, !headers_fresh_run_all, is_ValueError_run, !state_after_run.
  split; [reflexivity|]. split.
  - destruct (plan c) as [e|d]; [discriminate|]. intros _.
    eexists. split; [reflexivity|]. split; reflexivity.
  - intros s1 s2 Hh. rewrite !sent_by_run, Hh. reflexivity.
Qed.

Lemma C7_request_independent_of_history_witness :
  sent_by (run (UserInfo "alice" None))
          (run_all [SearchTweet "x" "top" (Some "p2"); TweetInfo "oops";
                    UserTimeline "bob" (Some "7") (Some "p3")]
                   (fresh "secret" "example.com" idle))
  = [mkRequest "https://twitter-api45.p.rapidapi.com/screenname.php"
               (headers_of "secret" "example.com") [("screenname", "alice")]].
Proof.
  rewrite (proj1 (C7_request_independent_of_history "secret" "example.com"
                    (UserInfo "alice" None)
                    [SearchTweet "x" "top" (Some "p2"); TweetInfo "oops";
                     UserTimeline "bob" (Some "7") (Some "p3")]
                    [] idle idle)).
  reflexivity.
Defined.

Lemma int_skips_leading_space c s :
  Py.isspace c = true -> Py.int (String c s) = Py.int s.
Proof. intro H. unfold Py.int. cbn [Py.lstrip]. rewrite H. reflexivity. Qed.

(** C8: the four id methods accept exactly the strings that [int()] accepts:
    a call raises [ValueError("Invalid Tweet ID")] with no request when
    [int(id)] fails, and otherwise issues one request whose [id] parameter is
    the argument as written.  So [" 42 "], ["+7"] and ["1_000"], which
    [int()] reads as 42, 7 and 1000, pass and are sent in that form, while
    ["3.0"] and [""] are refused. *)
Theorem C8_ids_accepted_as_int_accepts id cursor st :
  Forall (fun c =>
            (Py.int id = None ->
             outcome (run c) st = Raise (ValueError "Invalid Tweet ID")
             /\ sent_by (run c) st = [])
            /\ (forall n, Py.int id = Some n ->
                is_ValueError (outcome (run c) st) = false
                /\ exists req,
                    sent_by (run c) st = [req]
                    /\ Py.get "id" (req_params req) = Some id))
         (id_calls id cursor)
  /\ Py.int " 42 " = Some 42%Z
  /\ Py.int "+7" = Some 7%Z
  /\ Py.int "1_000" = Some 1000%Z
  /\ Py.int "3.0" = None
  /\ Py.int "" = None
  /\ Forall (fun id' =>
               Forall (fun c =>
                         exists req,
                           sent_by (run c) st = [req]
                           /\ Py.get "id" (req_params req) = Some id')
                      (id_calls id' cursor))
            [" 42 "; "+7"; "1_000"]
  /\ Forall (fun id' =>
               Forall (fun c =>
                         outcome (run c) st = Raise (ValueError "Invalid Tweet ID")
                         /\ sent_by (run c) st = [])
                      (id_calls id' cursor))
            ["3.0"; ""].
Proof.
  assert (Hgen : forall id',
             Forall (fun c =>
               (Py.int id' = None ->
                outcome (run c) st = Raise (ValueError "Invalid Tweet ID")
                /\ sent_by (run c) st = [])
               /\ (forall n, Py.int id' = Some n ->
                   is_ValueError (outcome (run c) st) = false
                   /\ exists req,
                       sent_by (run c) st = [req]
                       /\ Py.get "id" (req_params req) = Some id'))
               (id_calls id' cursor)).
  { intro id'. unfold id_calls.
    repeat (apply Forall_cons || apply Forall_nil);
      rewrite is_ValueError_run, outcome_run, sent_by_run; cbn [plan];
      (split; [intros -> | intros n ->]);
      (split; [reflexivity|]);
      eexists; (split; [reflexivity|]); reflexivity. }
  split; [apply Hgen|]. repeat (split; [reflexivity|]).
  split.
  - repeat (apply Forall_cons;
            [ eapply Forall_impl; [|apply (Hgen _)];
              cbv beta; intros c [_ H];
              (edestruct H as [_ H']; [reflexivity | exact H']) | ]).
    apply Forall_nil.
  - repeat (apply Forall_cons;
            [ eapply Forall_impl; [|apply (Hgen _)];
              cbv beta; intros c [H _]; apply H; reflexivity | ]).
    apply Forall_nil.
Qed.

Lemma C8_ids_accepted_as_int_accepts_witness :
  outcome (run (TweetInfo "1__0")) (fresh "secret" default_host idle)
  = Raise (ValueError "Invalid Tweet ID")
  /\ sent_by (run (TweetInfo "1__0")) (fresh "secret" default_host idle) = [].
Proof.
  pose proof (proj1 (C8_ids_accepted_as_int_accepts "1__0" None
                       (fresh "secret" default_host idle))) as H.
  rewrite Forall_forall in H.
  apply (H (TweetInfo "1__0")); [cbn; auto | reflexivity].
Defined.

(** C9: a call that raises [ValueError] leaves the whole state as it was: the
    key, the host, the headers and [self.params] of the instance, and the
    network. *)
Theorem C9_failed_call_changes_nothing c st :
  is_ValueError (outcome (run c) st) = true ->
  state_after (run c) st = st.
Proof.
  rewrite is_ValueError_run, state_after_run.
  destruct (plan c); [reflexivity | discriminate].
Qed.

Lemma C9_failed_call_changes_nothing_witness :
  params (self (state_after (run (Retweets "12a"))
                  (run_all [SearchTweet "x" "" None]
                           (fresh "secret" default_host idle))))
  = Some [("query", "x")].
Proof.
  rewrite (C9_failed_call_changes_nothing (Retweets "12a")
             (run_all [SearchTweet "x" "" None] (fresh "secret" default_host idle))
             eq_refl).
  reflexivity.
Defined.

(** C10: [searchTweet] never looks at its keyword.  Whenever the search type
    passes validation, one request is issued whose [query] parameter is the
    keyword as given, the empty string included; and whether the call raises
    [ValueError] is decided by the search type alone. *)
Theorem C10_keyword_not_validated keyword search_type cursor st :
  (Py.upper search_type = "" \/ In (Py.upper search_type) types ->
   is_ValueError (outcome (searchTweet keyword search_type cursor) st) = false
   /\ exists req,
       sent_by (searchTweet keyword search_type cursor) st = [req]
       /\ Py.get "query" (req_params req) = Some keyword)
  /\ (is_ValueError (outcome (searchTweet keyword search_type cursor) st) = true
      <-> Py.upper search_type <> "" /\ ~ In (Py.upper search_type) types)
  /\ (forall keyword',
        is_ValueError (outcome (searchTweet keyword' search_type cursor) st)
        = is_ValueError (outcome (searchTweet keyword search_type cursor) st)).
Proof.
  pose proof (sent_by_run (SearchTweet keyword search_type cursor) st) as Hs.
  pose proof (is_ValueError_run (SearchTweet keyword search_type cursor) st) as He.
  assert (Hk : forall keyword',
             is_ValueError (outcome (searchTweet keyword' search_type cursor) st)
             = is_ValueError (outcome (searchTweet keyword search_type cursor) st)).
  { intro keyword'.
    pose proof (is_ValueError_run (SearchTweet keyword' search_type cursor) st) as He'.
    cbn [run plan] in He, He'. rewrite He, He'.
    destruct (Py.mem (Py.upper search_type) types); [reflexivity|].
    destruct (String.eqb (Py.upper search_type) ""); reflexivity. }
  cbn [run plan] in Hs, He.
  split; [rewrite He, Hs | split; [rewrite He | exact Hk]]; clear He Hs Hk;
    destruct (Py.mem (Py.upper search_type) types) eqn:Hm;
    [ apply mem_In in Hm | apply mem_not_In in Hm
    | apply mem_In in Hm | apply mem_not_In in Hm ].
  - intros _. split; [reflexivity|]. eexists. split; reflexivity.
  - destruct (String.eqb (Py.upper search_type) "") eqn:Hu.
    + intros _. split; [reflexivity|]. eexists. split; reflexivity.
    + apply String.eqb_neq in Hu. intros [H|H]; contradiction.
  - split; [discriminate | intros [_ Hn]; contradiction].
  - destruct (String.eqb (Py.upper search_type) "") eqn:Hu.
    + apply String.eqb_eq in Hu.
      split; [discriminate | intros [Hn _]; contradiction].
    + apply String.eqb_neq in Hu. split; [auto | reflexivity].
Qed.

Lemma C10_keyword_not_validated_witness :
  exists req,
    sent_by (searchTweet "" "People" None) (fresh "secret" default_host idle) = [req]
    /\ Py.get "query" (req_params req) = Some "".
Proof.
  refine (proj2 (proj1 (C10_keyword_not_validated "" "People" None
                          (fresh "secret" default_host idle)) _)).
  right. cbn. auto 6.
Defined.

(** ** Further properties of the methods *)

(** *** How a call ends *)

Lemma sent_after_run c st :
  sent (net (state_after (run c) st)) = (sent (net st) ++ sent_by (run c) st)%list
  /\ remote (net (state_after (run c) st)) = remote (net st).
Proof.
  rewrite state_after_run, sent_by_run.
  destruct (plan c); cbn; [rewrite app_nil_r|]; split; reflexivity.
Qed.

Lemma params_after_run c st :
  params (self (state_after (run c) st))
  = latest_params (sent_by (run c) st) (params (self st)).
Proof.
  rewrite state_after_run, sent_by_run. destruct (plan c); reflexivity.
Qed.

Lemma sent_by_same_headers c st st' :
  APIheaders (self st') = APIheaders (self st) ->
  sent_by (run c) st' = sent_by (run c) st.
Proof. intro H. rewrite !sent_by_run, H. reflexivity. Qed.

(** X1: what a call returns is decided by the reply to its one request.  When
    the request gets a reply that decodes, the call returns that JSON value as
    it is; when the transport fails the call raises the transport's exception,
    and when the body does not decode it raises the decoder's.  Nothing is
    caught, retried or translated. *)
Theorem X1_outcome_follows_reply c st req :
  sent_by (run c) st = [req] ->
  outcome (run c) st
  = match remote (net st) (sent (net st)) req with
    | TransportFailed => Raise RequestException
    | Arrived None => Raise JSONDecodeError
    | Arrived (Some j) => Ok j
    end.
Proof.
  rewrite sent_by_run, outcome_run.
  destruct (plan c) as [e|d]; [discriminate|].
  intro H. injection H as <-. reflexivity.
Qed.

Lemma X1_outcome_follows_reply_witness :
  outcome (run (UserTimeline "alice" None (Some "p2")))
          (fresh "secret" default_host
                 (mkNetwork [] (fun _ r =>
                                  Arrived (Some (JString (req_url r))))))
  = Ok (JString "https://twitter-api45.p.rapidapi.com/timeline.php").
Proof.
  exact (X1_outcome_follows_reply (UserTimeline "alice" None (Some "p2"))
           (fresh "secret" default_host
                  (mkNetwork [] (fun _ r => Arrived (Some (JString (req_url r))))))
           _ eq_refl).
Defined.

(** X2: a call that fails in the transport or in decoding is not undone: its
    request stays in the log and [self.params] holds the parameters of the
    failed request. *)
Theorem X2_late_failure_keeps_effects c st :
  outcome (run c) st = Raise RequestException
  \/ outcome (run c) st = Raise JSONDecodeError ->
  exists req,
    sent_by (run c) st = [req]
    /\ sent (net (state_after (run c) st)) = (sent (net st) ++ [req])%list
    /\ params (self (state_after (run c) st)) = Some (req_params req).
Proof.
  intro H.
  assert (Hv : is_ValueError (outcome (run c) st) = false)
    by (destruct H as [-> | ->]; reflexivity).
  destruct (sent_after_run c st) as [Hs _].
  rewrite Hs, params_after_run. rewrite is_ValueError_run in Hv.
  rewrite sent_by_run. destruct (plan c); [discriminate|].
  eexists. repeat split.
Qed.

Lemma X2_late_failure_keeps_effects_witness :
  exists req,
    sent_by (run (TweetInfo "7"))
            (fresh "secret" default_host (mkNetwork [] (fun _ _ => TransportFailed)))
    = [req]
    /\ sent (net (state_after (run (TweetInfo "7"))
                    (fresh "secret" default_host
                           (mkNetwork [] (fun _ _ => TransportFailed)))))
       = ([] ++ [req])%list
    /\ params (self (state_after (run (TweetInfo "7"))
                       (fresh "secret" default_host
                              (mkNetwork [] (fun _ _ => TransportFailed)))))
       = Some (req_params req).
Proof.
  exact (X2_late_failure_keeps_effects (TweetInfo "7")
           (fresh "secret" default_host (mkNetwork [] (fun _ _ => TransportFailed)))
           (or_introl eq_refl)).
Defined.


(** *** Sequences of calls *)

Lemma run_all_app cs1 : forall cs2 st,
  run_all (cs1 ++ cs2)%list st = run_all cs2 (run_all cs1 st).
Proof.
  induction cs1 as [|c cs1 IH]; intros cs2 st; [reflexivity|].
  cbn [app run_all]. apply IH.
Qed.

Lemma requests_of_same_headers cs st st' :
  APIheaders (self st') = APIheaders (self st) ->
  requests_of cs st' = requests_of cs st.
Proof.
  intro H. unfold requests_of. apply flat_map_ext. intro c.
  apply sent_by_same_headers, H.
Qed.

Lemma last_app_default {A : Type} (l1 l2 : list A) d :
  last (l1 ++ l2)%list d = last l2 (last l1 d).
Proof.
  induction l1 as [|a l1 IH]; [reflexivity|].
  destruct l1 as [|b l1].
  - cbn. destruct l2; [reflexivity|]. cbn [last]. 
    clear IH. revert a0. induction l2 as [|x l2 IH2]; intro a0; [reflexivity|].
    cbn [last]. apply IH2.
  - change (last ((a :: b :: l1) ++ l2)%list d) with (last ((b :: l1) ++ l2)%list d).
    rewrite IH. reflexivity.
Qed.

(** X4: the log only grows, and by one request for each call that passes
    validation: after the calls of [cs] the log is the old log followed by the
    requests of those calls in order, each as the call would issue it on its
    own, and the remote side is the one there was. *)
Theorem X4_log_of_a_sequence cs : forall st,
  sent (net (run_all cs st)) = (sent (net st) ++ requests_of cs st)%list
  /\ remote (net (run_all cs st)) = remote (net st)
  /\ length (requests_of cs st) <= length cs.
Proof.
  induction cs as [|c cs IH]; intro st; cbn [run_all].
  - cbn. rewrite app_nil_r. auto.
  - destruct (IH (state_after (run c) st)) as (Hs & Hr & Hl).
    destruct (sent_after_run c st) as [Hs' Hr'].
    destruct (self_after_run c st) as (_ & _ & Ha).
    rewrite (requests_of_same_headers cs st _ Ha) in Hs, Hl.
    rewrite Hs, Hs', Hr, Hr', <- app_assoc.
    repeat split. change (requests_of (c :: cs) st)
      with (sent_by (run c) st ++ requests_of cs st)%list.
    rewrite length_app. cbn [length].
    rewrite sent_by_run. destruct (plan c); cbn [length];
      auto using le_n_S, le_S.
Qed.

(** X5: [self.params] always holds the parameters of the latest request the
    instance issued: after the calls of [cs] it is the parameter dictionary of
    the last request of those calls, and it is what it was (unset, on a new
    instance) when none of them passed validation. *)
Theorem X5_params_mirror_latest_request cs : forall st,
  params (self (run_all cs st))
  = latest_params (requests_of cs st) (params (self st)).
Proof.
  induction cs as [|c cs IH]; intro st; cbn [run_all]; [reflexivity|].
  destruct (self_after_run c st) as (_ & _ & Ha).
  rewrite IH, (requests_of_same_headers cs st _ Ha), params_after_run.
  change (requests_of (c :: cs) st)
    with (sent_by (run c) st ++ requests_of cs st)%list.
  unfold latest_params. rewrite map_app, last_app_default. reflexivity.
Qed.

(** X6: a refused call leaves no trace in a sequence: if a call raises
    [ValueError], the caller ends in the same state, instance and network,
    whether or not that call was made between the others. *)
Theorem X6_refused_call_is_invisible before c after st :
  is_ValueError (outcome (run c) (run_all before st)) = true ->
  run_all (before ++ c :: after)%list st = run_all (before ++ after)%list st.
Proof.
  intro H. rewrite !run_all_app. cbn [run_all]. f_equal.
  rewrite is_ValueError_run in H. rewrite state_after_run.
  destruct (plan c); [reflexivity | discriminate].
Qed.

Lemma X6_refused_call_is_invisible_witness :
  run_all ([UserInfo "alice" None] ++ TweetThread "1.5" None
             :: [SearchTweet "x" "top" None])%list
          (fresh "secret" default_host idle)
  = run_all ([UserInfo "alice" None] ++ [SearchTweet "x" "top" None])%list
            (fresh "secret" default_host idle).
Proof.
  exact (X6_refused_call_is_invisible [UserInfo "alice" None]
           (TweetThread "1.5" None) [SearchTweet "x" "top" None]
           (fresh "secret" default_host idle) eq_refl).
Defined.

(** X7: making the same call twice in a row issues the same request twice and
    leaves the instance as one call leaves it. *)
Theorem X7_repeated_call c st :
  sent_by (run c) (state_after (run c) st) = sent_by (run c) st
  /\ self (state_after (run c) (state_after (run c) st))
     = self (state_after (run c) st).
Proof.
  destruct (self_after_run c st) as (_ & _ & Ha).
  split; [apply sent_by_same_headers, Ha|].
  rewrite !state_after_run. destruct (plan c); reflexivity.
Qed.

(** *** What goes into a request *)

(** X8: the access key and the host reach a request through its headers only:
    the URL and the parameters a call sends are the same on every instance,
    whatever its key, its host and its earlier calls. *)
Theorem X8_key_only_in_headers c st1 st2 :
  map (fun r => (req_url r, req_params r)) (sent_by (run c) st1)
  = map (fun r => (req_url r, req_params r)) (sent_by (run c) st2).
Proof. rewrite !sent_by_run. destruct (plan c); reflexivity. Qed.

Lemma plan_names c d :
  plan c = inr d -> NoDup (map fst d) /\ incl (map fst d) param_names.
Proof.
  assert (Hnames : forall l : list string,
             forallb (fun x => Py.mem x param_names) l = true ->
             NoDup l -> NoDup l /\ incl l param_names).
  { intros l H Hn. split; [exact Hn|]. intros x Hx.
    rewrite forallb_forall in H. apply mem_In, H, Hx. }
  assert (Hd : forall (x : string) l, Py.mem x l = false -> ~ In x l)
    by (intros x l; apply mem_not_In).
  destruct c; cbn [plan];
    repeat match goal with
           | |- context [Py.int ?i] => destruct (Py.int i)
           | |- context [Py.mem (Py.upper ?t) types] =>
               destruct (Py.mem (Py.upper t) types)
           | |- context [String.eqb (Py.upper ?t) ""] =>
               destruct (String.eqb (Py.upper t) "")
           end;
    try discriminate; intro H; injection H as <-;
    repeat match goal with
           | x : option string |- _ => destruct x
           end;
    (apply Hnames; [reflexivity|]);
    repeat (constructor; [apply Hd; reflexivity|]); constructor.
Qed.

(** X9: every request names each of its parameters once, and the names come
    from [id], [cursor], [query], [search_types], [screenname] and [rest_id].
    The headers of an instance made by the constructor are likewise two
    distinct names. *)
Theorem X9_parameter_names_distinct c st req :
  In req (sent_by (run c) st) ->
  NoDup (map fst (req_params req))
  /\ incl (map fst (req_params req)) param_names
  /\ (forall k h pre n,
        st = run_all pre (fresh k h n) ->
        map fst (req_headers req) = ["X-RapidAPI-Key"; "X-RapidAPI-Host"]).
Proof.
  rewrite sent_by_run. destruct (plan c) as [e|d] eqn:Hp; [intros []|].
  intros [<- | []]. cbn [req_params req_headers].
  destruct (plan_names _ _ Hp) as [Hn Hi].
  repeat split; try assumption.
  intros k h pre n ->. rewrite headers_fresh_run_all. reflexivity.
Qed.

Lemma X9_parameter_names_distinct_witness :
  NoDup (map fst [("screenname", "alice"); ("rest_id", "7"); ("cursor", "p2")]).
Proof.
  exact (proj1 (X9_parameter_names_distinct
                  (UserTimeline "alice" (Some "7") (Some "p2"))
                  (fresh "secret" default_host idle)
                  (mkRequest "https://twitter-api45.p.rapidapi.com/timeline.php"
                             (headers_of "secret" default_host)
                             [("screenname", "alice"); ("rest_id", "7");
                              ("cursor", "p2")])
                  (or_introl eq_refl))).
Defined.

Lemma upper_char_idempotent c : Py.upper_char (Py.upper_char c) = Py.upper_char c.
Proof. destruct c as [[] [] [] [] [] [] [] []]; reflexivity. Qed.

Lemma upper_idempotent s : Py.upper (Py.upper s) = Py.upper s.
Proof.
  induction s as [|c s IH]; [reflexivity|].
  cbn [Py.upper]. rewrite upper_char_idempotent, IH. reflexivity.
Qed.

(** X10: [searchTweet] does not tell the letter case of its search type: it
    behaves on a search type as on its upper-case form, in the result, the
    request and the state it leaves.  So ["top"], ["Top"] and ["TOP"] are one
    and the same argument. *)
Theorem X10_search_type_case_blind keyword search_type cursor st :
  searchTweet keyword search_type cursor st
  = searchTweet keyword (Py.upper search_type) cursor st.
Proof.
  rewrite !searchTweet_planned. unfold planned, plan, url_of.
  rewrite upper_idempotent. reflexivity.
Qed.

(** *** The URL and the configured host *)

Lemma length_append (s t : string) :
  String.length (s ++ t) = String.length s + String.length t.
Proof. induction s as [|c s IH]; cbn; [reflexivity | rewrite IH; reflexivity]. Qed.

Lemma append_inv_head (s a b : string) : s ++ a = s ++ b -> a = b.
Proof.
  induction s as [|c s IH]; cbn; intro H; [exact H|].
  injection H as H. apply IH, H.
Qed.

Lemma append_inv_tail (t : string) : forall a b, a ++ t = b ++ t -> a = b.
Proof.
  induction a as [|c a IH]; intros [|c' b] H; cbn in H.
  - reflexivity.
  - apply (f_equal String.length) in H. cbn in H. rewrite length_append in H. lia.
  - apply (f_equal String.length) in H. cbn in H. rewrite length_append in H. lia.
  - injection H as -> H. f_equal. apply IH, H.
Qed.

(** X11: the URL of a request has the configured host as its authority
    exactly when that host is the default one,
    [twitter-api45.p.rapidapi.com]: only then is the URL
    [https://<host>/<endpoint>.php]. *)
Theorem X11_url_matches_host_iff_default c st req :
  In req (sent_by (run c) st) ->
  (req_url req = claimed_url (host (self st)) c <-> host (self st) = default_host).
Proof.
  rewrite sent_by_run. destruct (plan c) as [e|d]; [intros []|].
  intros [<- | []]. cbn [req_url].
  change (url_of c) with (claimed_url default_host c). unfold claimed_url.
  split.
  - intro H. apply append_inv_head, append_inv_tail in H. symmetry. exact H.
  - intros ->. reflexivity.
Qed.

Lemma X11_url_matches_host_iff_default_witness :
  "https://twitter-api45.p.rapidapi.com/search.php"
  = claimed_url (host (self (fresh "secret" default_host idle)))
                (SearchTweet "x" "" None).
Proof.
  refine (proj2 (X11_url_matches_host_iff_default (SearchTweet "x" "" None)
                   (fresh "secret" default_host idle)
                   (mkRequest "https://twitter-api45.p.rapidapi.com/search.php"
                              (headers_of "secret" default_host) [("query", "x")])
                   (or_introl eq_refl)) eq_refl).
Defined.

(** *** Which ids pass *)

Lemma digit_is_plain c r :
  isdigit c = true ->
  Py.isspace c = false
  /\ Py.is_underscore c = false
  /\ Py.take_sign (String c r) = (false, String c r).
Proof. destruct c as [[] [] [] [] [] [] [] []]; try discriminate; repeat split. Qed.

Lemma scan_all_digits s : forall n a,
  all_digits s = true ->
  exists v, Py.scan_digits false n a s = Some (n + String.length s, v, "").
Proof.
  induction s as [|c s IH]; intros n a H; cbn [all_digits] in H.
  - exists a. cbn. rewrite Nat.add_0_r. reflexivity.
  - apply andb_prop in H as [Hc Hs].
    destruct (digit_is_plain c "" Hc) as (_ & Hu & _).
    cbn [Py.scan_digits String.length]. rewrite Hu.
    unfold isdigit in Hc. destruct (Py.digit_value c) as [d|]; [|discriminate].
    destruct (IH (S n) (10 * a + d)%Z Hs) as [v Hv].
    exists v. rewrite Hv, Nat.add_succ_r. reflexivity.
Qed.

Lemma int_of_digits id :
  id <> "" -> all_digits id = true ->
  String.length id <= Py.int_max_str_digits ->
  exists n, Py.int id = Some n.
Proof.
  intros Hne Hd Hlen. destruct id as [|c r]; [contradiction|].
  pose proof Hd as Hd'. cbn [all_digits] in Hd'. apply andb_prop in Hd' as [Hc _].
  destruct (digit_is_plain c r Hc) as (Hsp & Hu & Hsign).
  destruct (scan_all_digits (String c r) 0 0%Z Hd) as [v Hv].
  exists v. unfold Py.int. cbn [Py.lstrip]. rewrite Hsp, Hsign, Hu, Hv.
  cbn [String.length] in Hlen |- *. cbn [Nat.add Nat.eqb].
  apply Nat.ltb_ge in Hlen. rewrite Hlen, andb_false_r. reflexivity.
Qed.

(** X12: an id written with decimal digits only, at least one and no more
    than the interpreter's limit on decimal literals, is accepted by the four
    id methods, and each sends it as it is. *)
Theorem X12_digit_ids_accepted id cursor st :
  id <> "" -> all_digits id = true ->
  String.length id <= Py.int_max_str_digits ->
  Forall (fun c =>
            is_ValueError (outcome (run c) st) = false
            /\ exists req,
                sent_by (run c) st = [req]
                /\ Py.get "id" (req_params req) = Some id)
         (id_calls id cursor).
Proof.
  intros Hne Hd Hlen. destruct (int_of_digits id Hne Hd Hlen) as [n Hn].
  unfold id_calls.
  repeat (apply Forall_cons || apply Forall_nil);
    rewrite is_ValueError_run, sent_by_run; cbn [plan]; rewrite Hn;
    (split; [reflexivity|]); eexists; (split; [reflexivity|]); reflexivity.
Qed.

Lemma X12_digit_ids_accepted_witness :
  exists req,
    sent_by (run (Retweets "1790123456789012345"))
            (fresh "secret" default_host idle) = [req]
    /\ Py.get "id" (req_params req) = Some "1790123456789012345".
Proof.
  pose proof (X12_digit_ids_accepted "1790123456789012345" None
                (fresh "secret" default_host idle)) as H.
  rewrite Forall_forall in H.
  refine (proj2 (H _ _ _ (Retweets "1790123456789012345") _)).
  - discriminate.
  - reflexivity.
  - apply Nat.leb_le. reflexivity.
  - cbn. auto.
Defined.

Lemma take_sign_cases c r :
  Py.take_sign (String c r)
  = if Ascii.eqb c "+" then (false, r)
    else if Ascii.eqb c "-" then (true, r)
    else (false, String c r).
Proof. destruct c as [[] [] [] [] [] [] [] []]; reflexivity. Qed.

Lemma foreign_is_plain c :
  foreign c = true ->
  isdigit c = false /\ Py.isspace c = false
  /\ is_sign c = false /\ Py.is_underscore c = false.
Proof.
  unfold foreign. rewrite negb_true_iff, !orb_false_iff. tauto.
Qed.

Lemma not_foreign c :
  isdigit c = true \/ Py.isspace c = true
  \/ is_sign c = true \/ Py.is_underscore c = true ->
  foreign c = false.
Proof.
  unfold foreign. intros [H | [H | [H | H]]]; rewrite H, ?orb_true_r; reflexivity.
Qed.

Lemma lstrip_keeps_foreign s :
  contains foreign s = true -> contains foreign (Py.lstrip s) = true.
Proof.
  induction s as [|c s IH]; [discriminate|]. cbn [contains Py.lstrip].
  destruct (Py.isspace c) eqn:Hsp; [|auto].
  rewrite (not_foreign c) by auto. exact IH.
Qed.

Lemma take_sign_keeps_foreign s :
  contains foreign s = true -> contains foreign (snd (Py.take_sign s)) = true.
Proof.
  destruct s as [|c s]; [discriminate|]. rewrite take_sign_cases.
  cbn [contains].
  destruct (Ascii.eqb c "+") eqn:Hp; [|destruct (Ascii.eqb c "-") eqn:Hm];
    cbn [snd contains]; try (intro H; exact H);
    rewrite (not_foreign c)
      by (right; right; left; unfold is_sign; rewrite ?Hp, ?Hm, ?orb_true_r;
          reflexivity);
    intro H; exact H.
Qed.

Lemma scan_keeps_foreign s : forall p n a n' v rest,
  Py.scan_digits p n a s = Some (n', v, rest) ->
  contains foreign s = true -> contains foreign rest = true.
Proof.
  induction s as [|c s IH]; intros p n a n' v rest Hscan Hc; [discriminate|].
  cbn [Py.scan_digits] in Hscan.
  destruct (Py.is_underscore c) eqn:Hu.
  - destruct p; [discriminate|].
    cbn [contains] in Hc. rewrite (not_foreign c) in Hc by auto.
    exact (IH _ _ _ _ _ _ Hscan Hc).
  - destruct (Py.digit_value c) as [d|] eqn:Hd.
    + cbn [contains] in Hc.
      rewrite (not_foreign c) in Hc by (left; unfold isdigit; rewrite Hd; reflexivity).
      exact (IH _ _ _ _ _ _ Hscan Hc).
    + destruct p; [discriminate|]. injection Hscan as _ _ <-. exact Hc.
Qed.

Lemma int_refuses_foreign id : contains foreign id = true -> Py.int id = None.
Proof.
  intro H. apply lstrip_keeps_foreign, take_sign_keeps_foreign in H.
  unfold Py.int. destruct (Py.take_sign (Py.lstrip id)) as [neg body].
  cbn [snd] in H. destruct body as [|c r]; [reflexivity|].
  destruct (Py.is_underscore c); [reflexivity|].
  destruct (Py.scan_digits false 0 0 (String c r)) as [[[nd v] rest]|] eqn:Hscan;
    [|reflexivity].
  apply (scan_keeps_foreign _ _ _ _ _ _ _ Hscan), lstrip_keeps_foreign in H.
  destruct (Nat.eqb nd 0); [reflexivity|].
  destruct ((0 <? Py.int_max_str_digits)%nat && (Py.int_max_str_digits <? nd)%nat);
    [reflexivity|].
  destruct (Py.lstrip rest); [discriminate H | reflexivity].
Qed.

(** X13: an id of ASCII text that holds any character other than a decimal
    digit, white space, a sign or an underscore (a letter, a decimal point, a
    slash) is refused by the four id methods: each raises
    [ValueError("Invalid Tweet ID")] and issues no request. *)
Theorem X13_foreign_character_refused id cursor st :
  is_ascii id = true ->
  contains foreign id = true ->
  Forall (fun c =>
            outcome (run c) st = Raise (ValueError "Invalid Tweet ID")
            /\ sent_by (run c) st = []
            /\ state_after (run c) st = st)
         (id_calls id cursor).
Proof.
  intros _ H. apply int_refuses_foreign in H. unfold id_calls.
  repeat (apply Forall_cons || apply Forall_nil);
    rewrite outcome_run, sent_by_run, state_after_run; cbn [plan]; rewrite H;
    repeat split.
Qed.

Lemma X13_foreign_character_refused_witness :
  outcome (run (TweetThread "https://x.com/i/status/20" (Some "p2")))
          (fresh "secret" default_host idle)
  = Raise (ValueError "Invalid Tweet ID").
Proof.
  pose proof (X13_foreign_character_refused "https://x.com/i/status/20" (Some "p2")
                (fresh "secret" default_host idle) eq_refl eq_refl) as H.
  rewrite Forall_forall in H.
  refine (proj1 (H (TweetThread "https://x.com/i/status/20" (Some "p2")) _)).
  cbn. auto.
Defined.

Lemma lstrip_adds_nothing p s :
  contains p s = false -> contains p (Py.lstrip s) = false.
Proof.
  induction s as [|c s IH]; [reflexivity|]. cbn [contains Py.lstrip].
  intro H. apply orb_false_iff in H as [Hc Hs].
  destruct (Py.isspace c); [apply IH, Hs|]. cbn [contains]. rewrite Hc, Hs.
  reflexivity.
Qed.

Lemma take_sign_adds_nothing p s :
  contains p s = false -> contains p (snd (Py.take_sign s)) = false.
Proof.
  destruct s as [|c s]; [reflexivity|]. rewrite take_sign_cases.
  cbn [contains]. intro H. pose proof H as H'.
  apply orb_false_iff in H' as [_ Hs].
  destruct (Ascii.eqb c "+"); [exact Hs|].
  destruct (Ascii.eqb c "-"); [exact Hs | exact H].
Qed.

Lemma scan_counts_digits s : forall p n a n' v rest,
  contains isdigit s = false ->
  Py.scan_digits p n a s = Some (n', v, rest) -> n' = n.
Proof.
  induction s as [|c s IH]; intros p n a n' v rest Hc Hscan;
    cbn [Py.scan_digits] in Hscan.
  - destruct p; [discriminate|]. injection Hscan as <- _ _. reflexivity.
  - cbn [contains] in Hc. apply orb_false_iff in Hc as [Hc Hs].
    destruct (Py.is_underscore c).
    + destruct p; [discriminate|]. exact (IH _ _ _ _ _ _ Hs Hscan).
    + unfold isdigit in Hc. destruct (Py.digit_value c); [discriminate|].
      destruct p; [discriminate|]. injection Hscan as <- _ _. reflexivity.
Qed.

Lemma int_needs_a_digit id : contains isdigit id = false -> Py.int id = None.
Proof.
  intro H. apply (lstrip_adds_nothing isdigit), take_sign_adds_nothing in H.
  unfold Py.int. destruct (Py.take_sign (Py.lstrip id)) as [neg body].
  cbn [snd] in H. destruct body as [|c r]; [reflexivity|].
  destruct (Py.is_underscore c); [reflexivity|].
  destruct (Py.scan_digits false 0 0 (String c r)) as [[[nd v] rest]|] eqn:Hscan;
    [|reflexivity].
  rewrite (scan_counts_digits _ _ _ _ _ _ _ H Hscan). reflexivity.
Qed.

(** X14: an id of ASCII text without a decimal digit (the empty string, white
    space alone, a bare sign) is refused by the four id methods, with no
    request and no change of state. *)
Theorem X14_id_without_digit_refused id cursor st :
  is_ascii id = true ->
  contains isdigit id = false ->
  Forall (fun c =>
            outcome (run c) st = Raise (ValueError "Invalid Tweet ID")
            /\ sent_by (run c) st = []
            /\ state_after (run c) st = st)
         (id_calls id cursor).
Proof.
  intros _ H. apply int_needs_a_digit in H. unfold id_calls.
  repeat (apply Forall_cons || apply Forall_nil);
    rewrite outcome_run, sent_by_run, state_after_run; cbn [plan]; rewrite H;
    repeat split.
Qed.

Lemma X14_id_without_digit_refused_witness :
  outcome (run (LatestReplies " - ")) (fresh "secret" default_host idle)
  = Raise (ValueError "Invalid Tweet ID").
Proof.
  pose proof (X14_id_without_digit_refused " - " None
                (fresh "secret" default_host idle) eq_refl eq_refl) as H.
  rewrite Forall_forall in H.
  refine (proj1 (H (LatestReplies " - ") _)).
  cbn. auto.
Defined.

(** *** The search type *)

(** X15: the [search_types] parameter [searchTweet] sends is always one of
    the five recognised values, in upper case, and is the upper case of the
    argument; it is left out only when the argument is the empty string. *)
Theorem X15_search_types_sent_is_recognised keyword search_type cursor st req :
  In req (sent_by (searchTweet keyword search_type cursor) st) ->
  match Py.get "search_types" (req_params req) with
  | Some t => t = Py.upper search_type /\ In t types
  | None => search_type = ""
  end.
Proof.
  pose proof (sent_by_run (SearchTweet keyword search_type cursor) st) as H.
  cbn [run plan] in H. rewrite H. clear H.
  destruct (Py.mem (Py.upper search_type) types) eqn:Hm.
  - intros [<- | []]. cbn [req_params].
    change (Py.get "search_types"
              (("query", keyword) :: ("search_types", Py.upper search_type)
                 :: optional "cursor" cursor))
      with (Some (Py.upper search_type)).
    split; [reflexivity | apply mem_In, Hm].
  - destruct (String.eqb (Py.upper search_type) "") eqn:He; [|intros []].
    intros [<- | []]. apply String.eqb_eq in He.
    apply (proj1 (upper_empty _)) in He. destruct cursor; exact He.
Qed.

Lemma X15_search_types_sent_is_recognised_witness :
  "PEOPLE" = Py.upper "pEoPlE" /\ In "PEOPLE" types.
Proof.
  exact (X15_search_types_sent_is_recognised "x" "pEoPlE" None
           (fresh "secret" default_host idle)
           (mkRequest "https://twitter-api45.p.rapidapi.com/search.php"
                      (headers_of "secret" default_host)
                      [("query", "x"); ("search_types", "PEOPLE")])
           (or_introl eq_refl)).
Defined.
